(** * translit_api_demo.py: the Kannada transliteration client

    A shallow embedding of [get_kannada_transliteration] and of the
    interactive loop of [src/translit_api_demo.py].

    - Python values produced by [response.json()] are the inductive [value];
      Python [str] is a list of code points, so that indexing a string
      yields a one-character string as it does in Python.
    - Exceptions are explicit: every indexing step returns a [result], the
      [try] block is [try_body], the three [except] clauses are [except].
    - The network and standard output are a trace of [event]s; the provider
      is a function from the request to what one call of [requests.get]
      does: a response, a [RequestException], or [UnicodeEncodeError] for a
      text it cannot encode. Redirects are followed inside that call.
    - [response.json()], [str.lower] and [str.strip] are library code and are
      taken as parameters; the decoder can also stop at one of its limits,
      with an exception that is not a decoding error.
    - [print] raises [UnicodeEncodeError] on a string with a lone
      surrogate. *)

From Stdlib Require Import List ZArith NArith String Ascii Bool Lia SpecFloat.
Import ListNotations.
Local Open Scope list_scope.
Set Warnings "-register-all".

(* ================================================================== *)
(** ** Python values and exceptions *)

Module Py.

Definition codepoint := N.

(** A Python [str]: a sequence of Unicode code points. *)
Definition str := list codepoint.

(** An ASCII literal of the source as a [str]. *)
Definition lit (s : string) : str := map N_of_ascii (list_ascii_of_string s).

Fixpoint str_eqb (a b : str) : bool :=
  match a, b with
  | [], [] => true
  | x :: a', y :: b' => N.eqb x y && str_eqb a' b'
  | _, _ => false
  end.

(** What [json.loads] can build: None, bool, int, float, str, list, dict
    (insertion-ordered, keys are always [str]). *)
Inductive value :=
| PyNone
| PyBool (b : bool)
| PyInt (z : Z)
| PyFloat (f : spec_float)
| PyStr (s : str)
| PyList (l : list value)
| PyDict (d : list (str * value)).

(** The exception classes that can occur in the program. *)
Inductive exc_class :=
| ConnectionError            (* requests.exceptions.ConnectionError *)
| RequestTimeout             (* requests.exceptions.Timeout *)
| HTTPError                  (* requests.exceptions.HTTPError *)
| RequestsJSONDecodeError    (* requests.exceptions.JSONDecodeError *)
| JSONDecodeError            (* json.JSONDecodeError *)
| IndexError
| TypeError
| KeyError
| UnboundLocalError
| EOFError
| ValueError                 (* the decoder's limit on the digits of an integer *)
| RecursionError             (* the decoder's limit on nesting *)
| UnicodeEncodeError.        (* a lone surrogate that has to be encoded *)

Record exc := mkExc { cls : exc_class; detail : string }.

(** [isinstance(e, requests.exceptions.RequestException)] *)
Definition is_RequestException (c : exc_class) : bool :=
  match c with
  | ConnectionError | RequestTimeout | HTTPError | RequestsJSONDecodeError => true
  | _ => false
  end.

(** [isinstance(e, json.JSONDecodeError)] *)
Definition is_JSONDecodeError (c : exc_class) : bool :=
  match c with
  | RequestsJSONDecodeError | JSONDecodeError => true
  | _ => false
  end.

(** [isinstance(e, (IndexError, TypeError))] *)
Definition is_IndexError_or_TypeError (c : exc_class) : bool :=
  match c with
  | IndexError | TypeError => true
  | _ => false
  end.

(** An expression either has a value or raises. *)
Inductive result (A : Type) :=
| Ok (a : A)
| Raise (e : exc).
Arguments Ok {A} a.
Arguments Raise {A} e.

Definition bind {A B : Type} (m : result A) (k : A -> result B) : result B :=
  match m with
  | Ok a => k a
  | Raise e => Raise e
  end.

Notation "x <- m ;; k" := (bind m (fun x => k))
  (at level 61, m at next level, right associativity).

(** [bool(v)] *)
Definition truthy (v : value) : bool :=
  match v with
  | PyNone => false
  | PyBool b => b
  | PyInt z => negb (Z.eqb z 0)
  | PyFloat (S754_zero _) => false
  | PyFloat _ => true
  | PyStr [] | PyList [] | PyDict [] => false
  | PyStr _ | PyList _ | PyDict _ => true
  end.

Definition type_name (v : value) : string :=
  match v with
  | PyNone => "NoneType"
  | PyBool _ => "bool"
  | PyInt _ => "int"
  | PyFloat _ => "float"
  | PyStr _ => "str"
  | PyList _ => "list"
  | PyDict _ => "dict"
  end.

Definition not_subscriptable (v : value) : exc :=
  mkExc TypeError (String.append (type_name v) " object is not subscriptable").

Definition not_iterable (v : value) : exc :=
  mkExc TypeError (String.append (type_name v) " object is not iterable").

(** [v[i]] for the literal indices [0] and [1] of the source.  A list or a
    string is indexed by position; a dict is looked up by key, and an
    [int] is never a key of a decoded JSON object; the other types are not
    subscriptable. *)
Definition getitem (v : value) (i : nat) : result value :=
  match v with
  | PyList l =>
      match nth_error l i with
      | Some x => Ok x
      | None => Raise (mkExc IndexError "list index out of range")
      end
  | PyStr s =>
      match nth_error s i with
      | Some c => Ok (PyStr [c])
      | None => Raise (mkExc IndexError "string index out of range")
      end
  | PyDict _ => Raise (mkExc KeyError (if Nat.eqb i 0 then "0" else "1"))
  | PyNone | PyBool _ | PyInt _ | PyFloat _ => Raise (not_subscriptable v)
  end.

(** [v == "..."] against a string literal: only an equal [str] is equal. *)
Definition eq_str (v : value) (s : str) : bool :=
  match v with
  | PyStr t => str_eqb t s
  | _ => false
  end.

(** What a [for] loop over [v] visits. *)
Definition iter (v : value) : result (list value) :=
  match v with
  | PyList l => Ok l
  | PyStr s => Ok (map (fun c => PyStr [c]) s)
  | PyDict d => Ok (map (fun kv => PyStr (fst kv)) d)
  | PyNone | PyBool _ | PyInt _ | PyFloat _ => Raise (not_iterable v)
  end.

(** [s.encode("utf-8")] succeeds: no code point of [s] is a surrogate
    (U+D800 to U+DFFF). *)
Definition encodable (s : str) : bool :=
  forallb (fun c => negb (N.leb 55296 c && N.leb c 57343)) s.

(** [print(f"... {v}")] can write [v]: a [str] is written as it is and has
    to be encodable; any other value is written through [repr], which
    escapes what cannot be encoded. *)
Definition printable (v : value) : bool :=
  match v with
  | PyStr s => encodable s
  | _ => true
  end.

Definition cannot_encode : exc :=
  mkExc UnicodeEncodeError "surrogates not allowed".

End Py.

Import Py.

(* ================================================================== *)
(** ** The HTTP library as the program uses it *)

Module Requests.

Inductive param :=
| PStr (s : str)
| PInt (z : Z).

Record request := mkRequest {
  url : string;
  params : list (string * param)
}.

Record Response := mkResponse {
  status_code : Z;
  text : str
}.

(** How a request can fail below HTTP. *)
Inductive net_failure :=
| ConnectionFailed
| TimedOut.

(** What one call of [requests.get] does: it raises [UnicodeEncodeError]
    while it encodes the parameters into the URL, before anything is sent;
    or it raises a [RequestException]; or it hands back a response.  The
    library follows redirects inside the call: the response is the last one
    of the chain, and what went over the wire is the library's business. *)
Inductive http_result :=
| Unreachable (f : net_failure) (cause : string)
| Responded (r : Response)
| NotSent.

Definition net_exc (f : net_failure) (cause : string) : exc :=
  match f with
  | ConnectionFailed => mkExc ConnectionError cause
  | TimedOut => mkExc RequestTimeout cause
  end.

(** [response.raise_for_status()]: "Raise an exception for bad status codes
    (4xx or 5xx)". *)
Definition raise_for_status (r : Response) : result unit :=
  if (400 <=? status_code r)%Z && (status_code r <? 600)%Z
  then Raise (mkExc HTTPError "bad status code")
  else Ok tt.

(** The limits of the decoder, which it reports with exceptions that are
    not [JSONDecodeError]: an integer of too many digits ([ValueError]),
    arrays or objects nested too deep ([RecursionError]). *)
Inductive decoder_limit :=
| IntegerTooLong
| NestedTooDeep.

Definition limit_exc (f : decoder_limit) (msg : string) : exc :=
  match f with
  | IntegerTooLong => mkExc ValueError msg
  | NestedTooDeep => mkExc RecursionError msg
  end.

(** [json.loads] on a body: the decoded value, the decoder's complaint that
    the body is not JSON, or one of its limits. *)
Inductive decoded :=
| Decoded (data : value)
| NotJSON (msg : string)
| OverLimit (f : decoder_limit) (msg : string).

Definition param_encodable (p : param) : bool :=
  match p with
  | PStr s => encodable s
  | PInt _ => true
  end.

(** [requests.get] over a network: the parameters are encoded first, and the
    network is reached only if they can be. *)
Definition library_get (network : request -> http_result) (req : request)
  : http_result :=
  if forallb (fun kv => param_encodable (snd kv)) (params req)
  then network req
  else NotSent.

End Requests.

Import Requests.

(* ================================================================== *)
(** ** What the program does to the outside world *)

(** The f-strings of the source, with the interpolated values kept as
    values. *)
Inductive message :=
| MsgRequestError (e : exc)                   (* "Error during request: {e}" *)
| MsgDecodeError (response_text : str)        (* "... Response text: {response.text}" *)
| MsgStructureError (e : exc) (data : value)  (* "Error parsing JSON structure: {e}. Response data: {data}" *)
| MsgErrorOccurred                            (* "An error occurred. Could not fetch suggestions." *)
| MsgNoSuggestions                            (* "No suggestions found." *)
| MsgSuggestionsHeader                        (* "\nSuggestions:" *)
| MsgSuggestion (number : nat) (suggestion : value)  (* "{i+1}. {suggestion}" *)
| MsgRule.                                    (* "-" * 20 *)

(** [HttpGet req] is one call of [requests.get(api_url, params=params)];
    [Stdout m] is one line printed; [Prompt] is one call of [input]. *)
Inductive event :=
| HttpGet (req : request)
| Stdout (m : message)
| Prompt.

(** How a call ends: [return v] or an exception leaving the function. *)
Inductive outcome :=
| Returned (v : value)
| Raised (e : exc).

(** How the process ends. *)
Inductive exit :=
| Finished
| Crashed (e : exc).

Definition SUCCESS : str := lit "SUCCESS".

Definition api_url : string := "https://inputtools.google.com/request".

Definition request_for (input_text : str) : request :=
  mkRequest api_url
    [ ("text"%string, PStr input_text);
      ("itc"%string, PStr (lit "kn-t-i0-und"));
      ("num"%string, PInt 5);
      ("cp"%string, PInt 0);
      ("cs"%string, PInt 1);
      ("ie"%string, PStr (lit "utf-8"));
      ("oe"%string, PStr (lit "utf-8"));
      ("app"%string, PStr (lit "demopage")) ].

(** Lines 61-66: the unwrapping of the decoded response. *)
Definition unwrap (data : value) : result value :=
  d0 <- getitem data 0 ;;
  if eq_str d0 SUCCESS then
    d1 <- getitem data 1 ;;
    if truthy d1 then
      p <- getitem data 1 ;;
      entry <- getitem p 0 ;;
      suggestions <- getitem entry 1 ;;
      Ok suggestions
    else Ok (PyList [])
  else Ok (PyList []).

(** The local variables the [except] clauses read; [None] is "not yet
    assigned". *)
Record locals := mkLocals {
  response : option Response;
  data : option value
}.

Definition unbound (name : string) : exc :=
  mkExc UnboundLocalError name.

(** Lines 68-76: the first clause whose class matches handles the
    exception; one that matches none leaves the function. *)
Definition except (l : locals) (e : exc) : list event * outcome :=
  if is_RequestException (cls e) then
    ([Stdout (MsgRequestError e)], Returned PyNone)
  else if is_JSONDecodeError (cls e) then
    match response l with
    | Some r => ([Stdout (MsgDecodeError (text r))], Returned PyNone)
    | None => ([], Raised (unbound "response"))
    end
  else if is_IndexError_or_TypeError (cls e) then
    match data l with
    | Some d => ([Stdout (MsgStructureError e d)], Returned PyNone)
    | None => ([], Raised (unbound "data"))
    end
  else ([], Raised e).

Section Client.

(** [json.loads]. *)
Variable json_loads : str -> decoded.

(** Whether [response.json()] reports a bad body with the HTTP library's own
    exception class (which is also a [RequestException]) or with
    [json.JSONDecodeError]; it depends on the installed library. *)
Variable requests_own_json_error : bool.

(** The provider, through [requests.get]. *)
Variable requests_get : request -> http_result.

Definition json_error_class : exc_class :=
  if requests_own_json_error then RequestsJSONDecodeError else JSONDecodeError.

(** [response.json()] *)
Definition response_json (r : Response) : result value :=
  match json_loads (text r) with
  | Decoded d => Ok d
  | NotJSON msg => Raise (mkExc json_error_class msg)
  | OverLimit f msg => Raise (limit_exc f msg)
  end.

(** Lines 32-66: the [try] block, with the locals as they are when it ends. *)
Definition try_body (input_text : str) : list event * locals * result value :=
  let req := request_for input_text in
  match requests_get req with
  | Unreachable f cause =>
      ([HttpGet req], mkLocals None None, Raise (net_exc f cause))
  | Responded r =>
      match raise_for_status r with
      | Raise e => ([HttpGet req], mkLocals (Some r) None, Raise e)
      | Ok _ =>
          match response_json r with
          | Raise e => ([HttpGet req], mkLocals (Some r) None, Raise e)
          | Ok d => ([HttpGet req], mkLocals (Some r) (Some d), unwrap d)
          end
      end
  | NotSent => ([HttpGet req], mkLocals None None, Raise cannot_encode)
  end.

Definition get_kannada_transliteration (input_text : str)
  : list event * outcome :=
  match input_text with
  | [] => ([], Returned (PyList []))
  | _ :: _ =>
      match try_body input_text with
      | (tr, _, Ok v) => (tr, Returned v)
      | (tr, l, Raise e) =>
          let (out, o) := except l e in (tr ++ out, o)
      end
  end.

(** [str.lower] and [str.strip]. *)
Variable lower : str -> str.
Variable strip : str -> str.

(** Lines 95-96: the numbered lines, up to the first suggestion that
    [print] cannot write, where [UnicodeEncodeError] ends the [for] loop. *)
Fixpoint enumerate (i : nat) (items : list value) : list event * option exc :=
  match items with
  | [] => ([], None)
  | suggestion :: rest =>
      if printable suggestion then
        let (out, x) := enumerate (S i) rest in
        (Stdout (MsgSuggestion (i + 1) suggestion) :: out, x)
      else ([], Some cannot_encode)
  end.

(** Lines 79-97: the loop, over the lines standard input will deliver.
    [input()] raises [EOFError] when there is no line left. *)
Fixpoint main (stdin : list str) : list event * exit :=
  match stdin with
  | [] => ([Prompt], Crashed (mkExc EOFError "EOF when reading a line"))
  | text_to_convert :: rest =>
      if str_eqb (lower text_to_convert) (lit "quit") then ([Prompt], Finished)
      else if negb (truthy (PyStr (strip text_to_convert))) then
        let (tr, x) := main rest in (Prompt :: tr, x)
      else
        match get_kannada_transliteration text_to_convert with
        | (call, Raised e) => (Prompt :: call, Crashed e)
        | (call, Returned kannada_suggestions) =>
            match kannada_suggestions with
            | PyNone =>
                let (tr, x) := main rest in
                (Prompt :: call ++ Stdout MsgErrorOccurred :: tr, x)
            | _ =>
                if negb (truthy kannada_suggestions) then
                  let (tr, x) := main rest in
                  (Prompt :: call ++ Stdout MsgNoSuggestions :: tr, x)
                else
                  match iter kannada_suggestions with
                  | Raise e =>
                      (Prompt :: call ++ [Stdout MsgSuggestionsHeader], Crashed e)
                  | Ok items =>
                      match enumerate 0 items with
                      | (out, Some e) =>
                          (Prompt :: call ++ Stdout MsgSuggestionsHeader :: out,
                           Crashed e)
                      | (out, None) =>
                          let (tr, x) := main rest in
                          (Prompt :: call ++ Stdout MsgSuggestionsHeader
                             :: out ++ Stdout MsgRule :: tr, x)
                      end
                  end
            end
        end
  end.

End Client.

(* ================================================================== *)
(** ** Vocabulary of the specification *)

Definition is_str (v : value) : bool :=
  match v with
  | PyStr _ => true
  | _ => false
  end.

(** A [TransliterationResult]: a (possibly empty) sequence of strings. *)
Definition is_str_seq (v : value) : bool :=
  match v with
  | PyList l => forallb is_str l
  | _ => false
  end.

(** A payload entry [[originalInput: string, suggestions: array<string>, ...]]. *)
Definition entry_shape (e : value) : bool :=
  match e with
  | PyList (PyStr _ :: suggestions :: _) => is_str_seq suggestions
  | _ => false
  end.

(** The [ProviderResponse] of the data model, in the spec's words:
    [[status: string, payload: array]], the payload empty or made of
    entries. *)
Definition provider_shape (d : value) : bool :=
  match d with
  | PyList [PyStr _; PyList payload] => forallb entry_shape payload
  | _ => false
  end.

(** The three error kinds of the specification. *)
Inductive error_kind :=
| TransportError
| DecodeError
| MalformedResponseError.

(** The [except] clause that takes an exception, if any does. *)
Definition handler_of (e : exc) : option error_kind :=
  if is_RequestException (cls e) then Some TransportError
  else if is_JSONDecodeError (cls e) then Some DecodeError
  else if is_IndexError_or_TypeError (cls e) then Some MalformedResponseError
  else None.

(** [e[1]] is missing: [e] is too short, or is not a sequence at all. *)
Definition lacks_second (e : value) : bool :=
  match e with
  | PyList (_ :: _ :: _) | PyStr (_ :: _ :: _) => false
  | PyDict _ => false
  | _ => true
  end.

(** [p[0][1]] is missing, for a truthy [p]. *)
Definition lacks_suggestions (p : value) : bool :=
  match p with
  | PyList (e :: _) => lacks_second e
  | PyStr _ => true
  | PyDict _ => false
  | _ => true
  end.

(** The decoded responses on which the indexing of lines 61-62 hits a
    missing position or a value that cannot be indexed: a scalar at the
    top, an empty array or string, a success marker with nothing after it,
    or a success marker and a truthy payload without a [[0][1]].  JSON
    objects on the indexed path are another matter and are left out. *)
Definition unindexable (d : value) : bool :=
  match d with
  | PyNone | PyBool _ | PyInt _ | PyFloat _ => true
  | PyStr s => negb (truthy d)
  | PyDict _ => false
  | PyList [] => true
  | PyList (status :: rest) =>
      eq_str status SUCCESS &&
      match rest with
      | [] => true
      | p :: _ => truthy p && lacks_suggestions p
      end
  end.

(** The calls of [requests.get] in a trace. *)
Fixpoint requests_made (tr : list event) : nat :=
  match tr with
  | [] => 0
  | HttpGet _ :: tr' => S (requests_made tr')
  | _ :: tr' => requests_made tr'
  end.

(** The provider answers the request for [input_text] with a response
    whose status passes [raise_for_status] and whose body decodes to [d]. *)
Definition delivers (json_loads : str -> decoded)
  (requests_get : request -> http_result) (input_text : str) (d : value) : Prop :=
  exists r, requests_get (request_for input_text) = Responded r
            /\ raise_for_status r = Ok tt
            /\ json_loads (text r) = Decoded d.

(** A call that ends in the [except] clause of kind [k]. *)
Definition fails_with (json_loads : str -> decoded) (own : bool)
  (requests_get : request -> http_result) (input_text : str) (k : error_kind) : Prop :=
  input_text <> [] /\
  exists tr l e, try_body json_loads own requests_get input_text = (tr, l, Raise e)
                 /\ handler_of e = Some k.

(** ASCII instances of [str.lower] and [str.strip] for the concrete runs
    below; on ASCII text they agree with Python's (white space is tab to
    carriage return, the separators 0x1C to 0x1F, and the space). *)
Definition ascii_lower (s : str) : str :=
  map (fun c => if (N.leb 65 c && N.leb c 90)%bool then (c + 32)%N else c) s.

Definition is_space (c : codepoint) : bool :=
  (N.leb 9 c && N.leb c 13)%bool || (N.leb 28 c && N.leb c 32)%bool.

Fixpoint lstrip (s : str) : str :=
  match s with
  | c :: s' => if is_space c then lstrip s' else s
  | [] => []
  end.

Definition ascii_strip (s : str) : str := rev (lstrip (rev (lstrip s))).

(** A mocked provider: every request is answered with [status] and a body
    that [response.json()] decodes to [d]. *)
Definition mock_get (status : Z) (body : str) : request -> http_result :=
  fun _ => Responded (mkResponse status body).

Definition mock_loads (d : value) : str -> decoded := fun _ => Decoded d.

(** A network-level failure and the exception it surfaces as: [requests.get]
    raised, or [raise_for_status] did on a 4xx or 5xx status. *)
Inductive network_failure : http_result -> exc -> Prop :=
| nf_unreachable (f : net_failure) (cause : string) :
    network_failure (Unreachable f cause) (net_exc f cause)
| nf_status (r : Response) :
    (400 <= status_code r < 600)%Z ->
    network_failure (Responded r) (mkExc HTTPError "bad status code").

(* ================================================================== *)
(** ** Example responses *)

(** U+0CB9 and U+0CB9 U+0CB2, the two suggestions of the spec's example. *)
Definition ha : str := [3257%N].
Definition hala : str := [3257%N; 3250%N].

(** [["SUCCESS", [["hello", [ha, hala], [], {}]]]] *)
Definition hello_response : value :=
  PyList [PyStr SUCCESS;
          PyList [PyList [PyStr (lit "hello"); PyList [PyStr ha; PyStr hala];
                          PyList []; PyDict []]]].

(** [["SUCCESS", []]] *)
Definition no_results_response : value :=
  PyList [PyStr SUCCESS; PyList []].

(** [["SUCCESS", [["x"]]]]: the suggestions element is missing. *)
Definition missing_suggestions_response : value :=
  PyList [PyStr SUCCESS; PyList [PyList [PyStr (lit "x")]]].

(** [["SUCCESS", [["x", 5]]]]: a number where the suggestions belong. *)
Definition number_suggestions_response : value :=
  PyList [PyStr SUCCESS; PyList [PyList [PyStr (lit "x"); PyInt 5]]].

(** [["SUCCESS", [["x", [ha, 7, null]]]]]: suggestions that are not all
    strings. *)
Definition mixed_suggestions : list value := [PyStr ha; PyInt 7; PyNone].
Definition mixed_suggestions_response : value :=
  PyList [PyStr SUCCESS;
          PyList [PyList [PyStr (lit "x"); PyList mixed_suggestions]]].

(** Six suggestions, one more than the [num] the request asks for. *)
Definition six_suggestions : list value :=
  [PyStr (lit "s1"); PyStr (lit "s2"); PyStr (lit "s3");
   PyStr (lit "s4"); PyStr (lit "s5"); PyStr (lit "s6")].
Definition six_suggestions_response : value :=
  PyList [PyStr SUCCESS;
          PyList [PyList [PyStr (lit "ka"); PyList six_suggestions;
                          PyList []; PyDict []]]].

(** [{"error": "quota"}]: a JSON object at the top. *)
Definition error_object_response : value :=
  PyDict [(lit "error", PyStr (lit "quota"))].

Definition mock_body : str := lit "(mocked body)".

(** U+DC80, a surrogate on its own. *)
Definition lone_surrogate : str := [56448%N].


(* ================================================================== *)
(** ** Vocabulary for the traces and for the loop *)

(** A JSON object where lines 61-62 index with [0] or [1]: the response
    itself, or, after the marker, a non-empty payload or the payload's first
    entry. *)
Definition object_on_path (d : value) : bool :=
  match d with
  | PyDict _ => true
  | PyList (status :: p :: _) =>
      eq_str status SUCCESS &&
      match p with
      | PyDict (_ :: _) => true
      | PyList (PyDict _ :: _) => true
      | _ => false
      end
  | _ => false
  end.

Definition is_prompt (ev : event) : bool :=
  match ev with
  | Prompt => true
  | _ => false
  end.

(** A trace without its prompts: the requests and the printed lines. *)
Definition visible (tr : list event) : list event :=
  filter (fun ev => negb (is_prompt ev)) tr.

(** The line ends the loop (line 82). *)
Definition is_quit (lower : str -> str) (line : str) : bool :=
  str_eqb (lower line) (lit "quit").

(** The line is skipped (lines 84-85, reached when line 82 did not break). *)
Definition is_blank (lower strip : str -> str) (line : str) : bool :=
  negb (is_quit lower line) && negb (truthy (PyStr (strip line))).

(** The lines "1. ...", "2. ..." for a list of suggestions. *)
Definition numbered (items : list value) : list event :=
  map (fun p => Stdout (MsgSuggestion (fst p) (snd p)))
      (combine (seq 1 (List.length items)) items).

(** What [input()] raises at the end of standard input. *)
Definition end_of_input : exc := mkExc EOFError "EOF when reading a line".

Definition is_stdout (ev : event) : bool :=
  match ev with
  | Stdout _ => true
  | _ => false
  end.

Section LoopBody.

Variable json_loads : str -> decoded.
Variable requests_own_json_error : bool.
Variable requests_get : request -> http_result.
Variable lower : str -> str.
Variable strip : str -> str.

(** One pass through lines 81-97 on a line that was read: its trace, and
    how the loop ends if it ends there. *)
Definition iteration (line : str) : list event * option exit :=
  if is_quit lower line then ([Prompt], Some Finished)
  else if is_blank lower strip line then ([Prompt], None)
  else
    match get_kannada_transliteration
            json_loads requests_own_json_error requests_get line with
    | (call, Raised e) => (Prompt :: call, Some (Crashed e))
    | (call, Returned PyNone) =>
        (Prompt :: call ++ [Stdout MsgErrorOccurred], None)
    | (call, Returned v) =>
        if negb (truthy v) then (Prompt :: call ++ [Stdout MsgNoSuggestions], None)
        else
          match iter v with
          | Raise e => (Prompt :: call ++ [Stdout MsgSuggestionsHeader], Some (Crashed e))
          | Ok items =>
              match enumerate 0 items with
              | (out, Some e) =>
                  (Prompt :: call ++ Stdout MsgSuggestionsHeader :: out,
                   Some (Crashed e))
              | (out, None) =>
                  (Prompt :: call ++ Stdout MsgSuggestionsHeader
                     :: out ++ [Stdout MsgRule], None)
              end
          end
    end.

End LoopBody.

(** [["SUCCESS", [["x", null]]]]: a null where the suggestions belong. *)
Definition null_suggestions_response : value :=
  PyList [PyStr SUCCESS; PyList [PyList [PyStr (lit "x"); PyNone]]].

(* ================================================================== *)
(** ** Basic facts *)

Lemma str_eqb_refl (s : str) : str_eqb s s = true.
Proof.
  induction s as [| c s IH]; simpl; [reflexivity |].
  now rewrite N.eqb_refl, IH.
Qed.

Lemma str_eqb_eq (a b : str) : str_eqb a b = true <-> a = b.
Proof.
  split.
  - revert b; induction a as [| x a IH]; intros [| y b]; simpl;
      try discriminate; [reflexivity |].
    intros H; apply andb_true_iff in H as [Hx Hab].
    apply N.eqb_eq in Hx; subst; f_equal; auto.
  - intros ->; apply str_eqb_refl.
Qed.

Lemma eq_str_SUCCESS (v : value) : eq_str v SUCCESS = true <-> v = PyStr SUCCESS.
Proof.
  destruct v; simpl; split; try discriminate; try congruence.
  - intros H; apply str_eqb_eq in H; now subst.
  - intros H; injection H as ->; apply str_eqb_refl.
Qed.

(** The indexing raises nothing but [IndexError], [TypeError] and
    [KeyError]. *)
Lemma getitem_raises (v : value) (i : nat) (e : exc) :
  getitem v i = Raise e ->
  cls e = IndexError \/ cls e = TypeError \/ cls e = KeyError.
Proof.
  destruct v; simpl; try (intros [= <-]; simpl; auto; fail).
  - destruct (nth_error s i); intros [= <-]; auto.
  - destruct (nth_error l i); intros [= <-]; auto.
Qed.

Lemma unwrap_raises (d : value) (e : exc) :
  unwrap d = Raise e ->
  cls e = IndexError \/ cls e = TypeError \/ cls e = KeyError.
Proof.
  unfold unwrap.
  destruct (getitem d 0) as [d0 |e0] eqn:E0; simpl;
    [| intros [= <-]; eauto using getitem_raises].
  destruct (eq_str d0 SUCCESS); [| discriminate].
  destruct (getitem d 1) as [d1 |e1] eqn:E1; simpl;
    [| intros [= <-]; eauto using getitem_raises].
  destruct (truthy d1); [| discriminate].
  destruct (getitem d1 0) as [p |e2] eqn:E2; simpl;
    [| intros [= <-]; eauto using getitem_raises].
  destruct (getitem p 1) as [s |e3] eqn:E3; simpl;
    [discriminate | intros [= <-]; eauto using getitem_raises].
Qed.

(** On a well-formed success response the unwrapping is the second element
    of the first payload entry. *)
Lemma unwrap_success (echoed suggestions : value) (fields entries more : list value) :
  unwrap (PyList (PyStr SUCCESS
                  :: PyList (PyList (echoed :: suggestions :: fields) :: entries)
                  :: more))
  = Ok suggestions.
Proof. reflexivity. Qed.



(** A non-empty string at the top: its first character is not the marker. *)
Lemma unwrap_one_char (c : codepoint) (s : str) :
  unwrap (PyStr (c :: s)) = Ok (PyList []).
Proof.
  unfold unwrap; simpl getitem; unfold bind.
  replace (eq_str (PyStr [c]) SUCCESS) with false; [reflexivity |].
  simpl; now rewrite andb_false_r.
Qed.

(** The indexing fails with [IndexError] or [TypeError] exactly on the
    unindexable responses. *)
Lemma unwrap_unindexable (d : value) :
  unindexable d = true <->
  exists e, unwrap d = Raise e /\ is_IndexError_or_TypeError (cls e) = true.
Proof.
  split.
  - destruct d as [| b | z | f | s | l | m]; simpl; try discriminate;
      try (intros _; eexists; split; reflexivity).
    + destruct s; simpl; [| discriminate].
      intros _; eexists; split; reflexivity.
    + destruct l as [| status rest]; [intros _; eexists; split; reflexivity |].
      intros H; apply andb_true_iff in H as [Hs Hr].
      unfold unwrap; simpl; rewrite Hs.
      destruct rest as [| p rest']; [eexists; split; reflexivity |].
      apply andb_true_iff in Hr as [Ht Hp]; simpl; rewrite Ht.
      destruct p as [| b | z | f | s | es | m]; simpl in *; try discriminate;
        try (eexists; split; reflexivity).
      * destruct s as [| c s']; simpl in *; [discriminate |].
        eexists; split; reflexivity.
      * destruct es as [| e es']; simpl in *; [discriminate |].
        destruct e as [| b | z | f | s | fs | m]; simpl in *; try discriminate;
          try (eexists; split; reflexivity).
        -- destruct s as [| c [| c' s']]; simpl in *; try discriminate;
             eexists; split; reflexivity.
        -- destruct fs as [| x [| y fs']]; simpl in *; try discriminate;
             eexists; split; reflexivity.
  - intros (e & He & Hc).
    destruct d as [| b | z | f | s | l | m]; simpl; try reflexivity.
    + destruct s as [| c s']; [reflexivity |].
      rewrite unwrap_one_char in He; discriminate.
    + destruct l as [| status rest]; [reflexivity |].
      unfold unwrap in He; simpl in He.
      destruct (eq_str status SUCCESS); [| discriminate]; simpl.
      destruct rest as [| p rest']; [reflexivity |]; simpl in He.
      destruct (truthy p) eqn:Ht; [| discriminate]; simpl.
      destruct p as [| b | z | f | s | es | m]; simpl in *; try reflexivity;
        try discriminate.
      * destruct es as [| e0 es']; simpl in *; [discriminate |].
        destruct e0 as [| b | z | f | s | fs | m]; simpl in *; try reflexivity.
        -- destruct s as [| c [| c' s']]; simpl in *; try reflexivity; discriminate.
        -- destruct fs as [| x [| y fs']]; simpl in *; try reflexivity; discriminate.
        -- injection He as <-; discriminate.
      * destruct m; simpl in *; [discriminate |].
        injection He as <-; discriminate.
    + unfold unwrap in He; simpl in He; injection He as <-; discriminate.
Qed.

(* ================================================================== *)
(** ** The client against an arbitrary provider *)

Section ClientProperties.

Variable json_loads : str -> decoded.
Variable requests_own_json_error : bool.
Variable requests_get : request -> http_result.

Local Abbreviation transliterate :=
  (get_kannada_transliteration json_loads requests_own_json_error requests_get).

(** A call whose response decodes: one request, then the unwrapping and,
    if it raises, the [except] clauses with both locals assigned. *)
Lemma run_decoded (input_text : str) (r : Response) (d : value) :
  input_text <> [] ->
  requests_get (request_for input_text) = Responded r ->
  raise_for_status r = Ok tt ->
  json_loads (text r) = Decoded d ->
  transliterate input_text =
    match unwrap d with
    | Ok v => ([HttpGet (request_for input_text)], Returned v)
    | Raise e =>
        let (out, o) := except (mkLocals (Some r) (Some d)) e in
        ([HttpGet (request_for input_text)] ++ out, o)
    end.
Proof.
  intros Hne Hget Hst Hjs.
  destruct input_text as [| c s]; [contradiction |].
  unfold get_kannada_transliteration, try_body, response_json.
  rewrite Hget, Hst, Hjs.
  destruct (unwrap d); reflexivity.
Qed.

Lemma run_unreachable (input_text : str) (f : net_failure) (cause : string) :
  input_text <> [] ->
  requests_get (request_for input_text) = Unreachable f cause ->
  transliterate input_text =
    ([HttpGet (request_for input_text); Stdout (MsgRequestError (net_exc f cause))],
     Returned PyNone).
Proof.
  intros Hne Hget.
  destruct input_text as [| c s]; [contradiction |].
  unfold get_kannada_transliteration, try_body.
  rewrite Hget.
  destruct f; reflexivity.
Qed.

Lemma run_bad_status (input_text : str) (r : Response) :
  input_text <> [] ->
  requests_get (request_for input_text) = Responded r ->
  (400 <= status_code r < 600)%Z ->
  transliterate input_text =
    ([HttpGet (request_for input_text);
      Stdout (MsgRequestError (mkExc HTTPError "bad status code"))],
     Returned PyNone).
Proof.
  intros Hne Hget [Hlo Hhi].
  destruct input_text as [| c s]; [contradiction |].
  unfold get_kannada_transliteration, try_body, raise_for_status.
  rewrite Hget.
  apply Z.leb_le in Hlo; apply Z.ltb_lt in Hhi; rewrite Hlo, Hhi.
  reflexivity.
Qed.

(** A body that is not JSON: which clause takes the exception depends on
    its class, the returned value does not. *)
Lemma run_not_json (input_text : str) (r : Response) (msg : string) :
  input_text <> [] ->
  requests_get (request_for input_text) = Responded r ->
  raise_for_status r = Ok tt ->
  json_loads (text r) = NotJSON msg ->
  transliterate input_text =
    ([HttpGet (request_for input_text);
      Stdout (if requests_own_json_error
              then MsgRequestError (mkExc RequestsJSONDecodeError msg)
              else MsgDecodeError (text r))],
     Returned PyNone).
Proof.
  intros Hne Hget Hst Hjs.
  destruct input_text as [| c s]; [contradiction |].
  unfold get_kannada_transliteration, try_body, response_json, json_error_class.
  rewrite Hget, Hst, Hjs.
  destruct requests_own_json_error; reflexivity.
Qed.

(** A body over one of the decoder's limits: no clause names the
    exception, which leaves the call. *)
Lemma run_over_limit (input_text : str) (r : Response) (f : decoder_limit)
  (msg : string) :
  input_text <> [] ->
  requests_get (request_for input_text) = Responded r ->
  raise_for_status r = Ok tt ->
  json_loads (text r) = OverLimit f msg ->
  transliterate input_text =
    ([HttpGet (request_for input_text)], Raised (limit_exc f msg)).
Proof.
  intros Hne Hget Hst Hjs.
  destruct input_text as [| c s]; [contradiction |].
  unfold get_kannada_transliteration, try_body, response_json.
  rewrite Hget, Hst, Hjs.
  destruct f; reflexivity.
Qed.

(** A text the library cannot encode: the same. *)
Lemma run_not_sent (input_text : str) :
  input_text <> [] ->
  requests_get (request_for input_text) = NotSent ->
  transliterate input_text =
    ([HttpGet (request_for input_text)], Raised cannot_encode).
Proof.
  intros Hne Hget.
  destruct input_text as [| c s]; [contradiction |].
  unfold get_kannada_transliteration, try_body.
  rewrite Hget; reflexivity.
Qed.

(** Goes through the [except] clauses in their order; each prints at most
    one line and adds no request. *)
Ltac by_clause :=
  unfold except; simpl;
  repeat match goal with
         | |- context [if ?b then _ else _] => destruct b
         | |- context [match ?o with Some _ => _ | None => _ end] => destruct o
         end;
  simpl; lia.

(** Whatever the provider does, a call calls [requests.get] at most once. *)
Lemma at_most_one_request (input_text : str) :
  requests_made (fst (transliterate input_text)) <= 1.
Proof.
  destruct input_text as [| c s]; simpl; [lia |].
  unfold try_body.
  destruct (requests_get _) as [f cause | r |].
  - destruct f; simpl; lia.
  - destruct (raise_for_status r) as [[] | e]; [| by_clause].
    destruct (response_json _ _ r) as [d | e]; [| by_clause].
    destruct (unwrap d) as [v | e]; [simpl; lia | by_clause].
  - simpl; lia.
Qed.

(** Every call that ends in one of the three [except] clauses returns
    [None]. *)
Lemma failing_returns_None (input_text : str) (k : error_kind) :
  fails_with json_loads requests_own_json_error requests_get input_text k ->
  snd (transliterate input_text) = Returned PyNone.
Proof.
  intros [Hne (tr & l & e & Hbody & Hk)].
  destruct input_text as [| c s]; [contradiction |].
  unfold get_kannada_transliteration; rewrite Hbody.
  unfold try_body in Hbody.
  destruct (requests_get _) as [f cause | r |].
  - injection Hbody as <- <- <-. destruct f; reflexivity.
  - destruct (raise_for_status r) as [[] | e0] eqn:Hst.
    + unfold response_json, json_error_class in Hbody.
      destruct (json_loads (text r)) as [d | msg | f msg].
      * injection Hbody as <- <- Hu.
        destruct (unwrap_raises _ _ Hu) as [Hc | [Hc | Hc]];
          unfold handler_of in Hk; unfold except; rewrite Hc in *; simpl in *;
          try reflexivity; discriminate.
      * injection Hbody as <- <- <-.
        destruct requests_own_json_error; reflexivity.
      * injection Hbody as <- <- <-.
        destruct f; discriminate Hk.
    + injection Hbody as <- <- <-.
      unfold raise_for_status in Hst.
      destruct (_ && _)%bool; [| discriminate].
      injection Hst as <-; reflexivity.
  - injection Hbody as <- <- <-; discriminate Hk.
Qed.

(** C1: on a decoded response of the success shape
    [["SUCCESS", [[echoedInput, suggestions, ...], ...]]] with a non-empty
    payload, the call makes its one request and returns exactly the
    suggestions array found as the second element of the first payload
    entry. *)
Theorem C1_success_returns_suggestions
  (input_text : str) (echoed : value) (suggestions fields entries more : list value) :
  input_text <> [] ->
  delivers json_loads requests_get input_text
    (PyList (PyStr SUCCESS
             :: PyList (PyList (echoed :: PyList suggestions :: fields) :: entries)
             :: more)) ->
  transliterate input_text =
    ([HttpGet (request_for input_text)], Returned (PyList suggestions)).
Proof.
  intros Hne (r & Hget & Hst & Hjs).
  rewrite (run_decoded _ _ _ Hne Hget Hst Hjs).
  now rewrite unwrap_success.
Qed.


(** C5: on the empty input the call returns the empty list at once: its
    trace is empty, so no request was made. *)
Theorem C5_empty_input_no_request :
  get_kannada_transliteration json_loads requests_own_json_error requests_get []
  = ([], Returned (PyList []))
  /\ requests_made
       (fst (get_kannada_transliteration
               json_loads requests_own_json_error requests_get []))
     = 0.
Proof. split; reflexivity. Qed.

(** X16: when the request succeeded and the decoder reports that the body
    is not JSON, the call has called [requests.get] once, prints one
    diagnostic and returns [None]. The diagnostic depends on the class of the
    decoder's exception: the raw response text for [json.JSONDecodeError]
    (lines 71-73); the exception itself, from the clause of line 68, for the
    HTTP library's own class. *)
Theorem X16_not_json_returns_None
  (input_text : str) (r : Response) (msg : string) :
  input_text <> [] ->
  requests_get (request_for input_text) = Responded r ->
  raise_for_status r = Ok tt ->
  json_loads (text r) = NotJSON msg ->
  transliterate input_text =
    ([HttpGet (request_for input_text);
      Stdout (if requests_own_json_error
              then MsgRequestError (mkExc RequestsJSONDecodeError msg)
              else MsgDecodeError (text r))],
     Returned PyNone)
  /\ requests_made (fst (transliterate input_text)) = 1.
Proof.
  intros Hne Hget Hst Hjs.
  rewrite (run_not_json _ _ _ Hne Hget Hst Hjs).
  split; reflexivity.
Qed.

Lemma unwrap_provider_shape (d : value) :
  provider_shape d = true ->
  exists v, unwrap d = Ok v /\ is_str_seq v = true.
Proof.
  destruct d as [| | | | | l |]; try discriminate.
  destruct l as [| [| | | | s | |] [| [| | | | | payload |] [|]]]; try discriminate.
  simpl; intros Hp.
  unfold unwrap; simpl.
  destruct (str_eqb s SUCCESS); [| now exists (PyList [])].
  destruct payload as [| e es]; [now exists (PyList []) |].
  simpl in Hp; apply andb_true_iff in Hp as [He _].
  destruct e as [| | | | | fs |]; try discriminate.
  destruct fs as [| [| | | | o | |] [| sugg fs']]; try discriminate.
  now exists sugg.
Qed.

(** X15: on every decoded response that cannot be indexed as lines 61-62
    do (a scalar at the top, an empty array or string, the marker with no
    second element, or the marker and a truthy payload whose [[0][1]] is
    missing, as in [["SUCCESS", [["x"]]]]), the call returns the failure
    value [None] after a diagnostic that carries the [IndexError] or
    [TypeError] and the decoded structure. *)
Theorem X15_unindexable_response_fails (input_text : str) (d : value) :
  input_text <> [] ->
  delivers json_loads requests_get input_text d ->
  unindexable d = true ->
  exists e, is_IndexError_or_TypeError (cls e) = true
            /\ transliterate input_text =
                 ([HttpGet (request_for input_text); Stdout (MsgStructureError e d)],
                  Returned PyNone).
Proof.
  intros Hne (r & Hget & Hst & Hjs) Hu.
  apply unwrap_unindexable in Hu as (e & He & Hc).
  exists e; split; [exact Hc |].
  rewrite (run_decoded _ _ _ Hne Hget Hst Hjs), He.
  unfold except.
  destruct e as [c m]; simpl in *.
  destruct c; try discriminate; reflexivity.
Qed.

(** C4, amended: on a well-formed success response the call returns every
    entry of the suggestions array in the original order, the first five
    followed by all the others; the limit 5 is only sent to the provider as
    the [num] parameter of the request. *)
Theorem C4_suggestions_are_not_truncated
  (input_text : str) (echoed : value) (suggestions fields entries more : list value) :
  input_text <> [] ->
  delivers json_loads requests_get input_text
    (PyList (PyStr SUCCESS
             :: PyList (PyList (echoed :: PyList suggestions :: fields) :: entries)
             :: more)) ->
  exists returned,
    transliterate input_text =
      ([HttpGet (request_for input_text)], Returned (PyList returned))
    /\ returned = firstn 5 suggestions ++ skipn 5 suggestions
    /\ List.length returned = List.length suggestions
    /\ In ("num"%string, PInt 5) (params (request_for input_text)).
Proof.
  intros Hne (r & Hget & Hst & Hjs).
  exists suggestions.
  rewrite (run_decoded _ _ _ Hne Hget Hst Hjs), unwrap_success.
  repeat split.
  - symmetry; apply firstn_skipn.
  - simpl; auto.
Qed.

(** C6, amended: when every response the provider can deliver for the
    input has the shape of the data model, whatever the call returns is the
    failure value [None] or a (possibly empty) sequence of strings. *)
Theorem C6_result_is_clean_on_provider_shape
  (input_text : str) (tr : list event) (v : value) :
  (forall d, delivers json_loads requests_get input_text d -> provider_shape d = true) ->
  transliterate input_text = (tr, Returned v) ->
  v = PyNone \/ is_str_seq v = true.
Proof.
  intros Hshape.
  destruct input_text as [| c s]; [intros [= _ <-]; now right |].
  assert (Hne : c :: s <> []) by discriminate.
  destruct (requests_get (request_for (c :: s))) as [f cause | r |] eqn:Hget.
  - rewrite (run_unreachable _ _ _ Hne Hget); intros [= _ <-]; now left.
  - destruct (raise_for_status r) as [[] | e] eqn:Hst.
    + destruct (json_loads (text r)) as [d | msg | f msg] eqn:Hjs.
      * destruct (unwrap_provider_shape d) as (v' & Hv & Hs).
        { apply Hshape; exists r; auto. }
        rewrite (run_decoded _ _ _ Hne Hget Hst Hjs), Hv.
        intros [= _ <-]; now right.
      * rewrite (run_not_json _ _ _ Hne Hget Hst Hjs); intros [= _ <-]; now left.
      * rewrite (run_over_limit _ _ _ _ Hne Hget Hst Hjs); discriminate.
    + assert (Hr : (400 <= status_code r < 600)%Z).
      { unfold raise_for_status in Hst.
        destruct (_ && _)%bool eqn:Hb; [| discriminate].
        apply andb_true_iff in Hb as [Hlo Hhi].
        apply Z.leb_le in Hlo; apply Z.ltb_lt in Hhi; lia. }
      rewrite (run_bad_status _ _ Hne Hget Hr); intros [= _ <-]; now left.
  - rewrite (run_not_sent _ Hne Hget); discriminate.
Qed.

(** C8, amended: on a connection error, a timeout or a 4xx or 5xx status
    the call has called [requests.get] exactly once, prints the cause and
    returns the failure value [None]; the program tries nothing again. *)
Theorem C8_network_failure_fails (input_text : str) (e : exc) :
  input_text <> [] ->
  network_failure (requests_get (request_for input_text)) e ->
  transliterate input_text =
    ([HttpGet (request_for input_text); Stdout (MsgRequestError e)], Returned PyNone)
  /\ requests_made (fst (transliterate input_text)) = 1
  /\ is_RequestException (cls e) = true.
Proof.
  intros Hne Hnf.
  inversion Hnf as [f cause Hget | r Hr Hget]; subst.
  - symmetry in Hget.
    rewrite (run_unreachable _ _ _ Hne Hget); simpl.
    repeat split; now destruct f.
  - symmetry in Hget.
    rewrite (run_bad_status _ _ Hne Hget Hr); simpl.
    repeat split.
Qed.

Section Loop.

Variable lower : str -> str.
Variable strip : str -> str.

Local Abbreviation loop :=
  (main json_loads requests_own_json_error requests_get lower strip).

(** After a call that returned [None] the loop reports an error and goes on
    with the next line, whichever [except] clause it was. *)
Lemma main_after_None (text_to_convert : str) (rest : list str) (call : list event) :
  str_eqb (lower text_to_convert) (lit "quit") = false ->
  truthy (PyStr (strip text_to_convert)) = true ->
  transliterate text_to_convert = (call, Returned PyNone) ->
  loop (text_to_convert :: rest) =
    (Prompt :: call ++ Stdout MsgErrorOccurred :: fst (loop rest), snd (loop rest)).
Proof.
  intros Hq Hs Hcall.
  cbn [main]; rewrite Hq, Hs, Hcall; cbn [negb].
  now destruct (main _ _ _ _ _ rest).
Qed.

(** An exception that leaves the call ends the process: no later line is
    read. *)
Lemma main_after_Raised (text_to_convert : str) (rest : list str)
  (call : list event) (e : exc) :
  str_eqb (lower text_to_convert) (lit "quit") = false ->
  truthy (PyStr (strip text_to_convert)) = true ->
  transliterate text_to_convert = (call, Raised e) ->
  loop (text_to_convert :: rest) = (Prompt :: call, Crashed e).
Proof.
  intros Hq Hs Hcall.
  cbn [main]; rewrite Hq, Hs, Hcall; reflexivity.
Qed.

End Loop.

End ClientProperties.

(* ================================================================== *)
(** ** What the caller can tell apart *)

(** C10: two calls that end in [except] clauses, of whatever kinds and
    against whatever providers, return the same value, [None]; that value
    differs from the empty list of the no-result outcome. *)
Theorem C10_error_kinds_collapse_to_None
  (loads1 loads2 : str -> decoded) (own1 own2 : bool)
  (get1 get2 : request -> http_result) (input1 input2 : str) (k1 k2 : error_kind) :
  fails_with loads1 own1 get1 input1 k1 ->
  fails_with loads2 own2 get2 input2 k2 ->
  snd (get_kannada_transliteration loads1 own1 get1 input1)
  = snd (get_kannada_transliteration loads2 own2 get2 input2)
  /\ snd (get_kannada_transliteration loads1 own1 get1 input1) = Returned PyNone
  /\ Returned PyNone <> Returned (PyList []).
Proof.
  intros H1 H2.
  apply failing_returns_None in H1, H2.
  rewrite H1, H2.
  repeat split; discriminate.
Qed.

(* ================================================================== *)
(** ** Concrete runs against a mocked provider *)

(** C9: a JSON object as the response makes [data[0]] raise [KeyError],
    which no [except] clause names: the exception leaves the call, and the
    loop, which has no handler, ends with it before reading the next line. *)
Theorem C9_object_response_ends_the_process :
  get_kannada_transliteration
    (mock_loads error_object_response) false (mock_get 200 mock_body) (lit "a")
  = ([HttpGet (request_for (lit "a"))], Raised (mkExc KeyError "0"))
  /\ main (mock_loads error_object_response) false (mock_get 200 mock_body)
       ascii_lower ascii_strip [lit "a"; lit "quit"]
     = ([Prompt; HttpGet (request_for (lit "a"))], Crashed (mkExc KeyError "0")).
Proof. split; reflexivity. Qed.

(** The spec's example: the mocked response
    [["SUCCESS", [["hello", [ha, hala], [], {}]]]] gives exactly [[ha, hala]]. *)
Lemma C1_witness_hello :
  get_kannada_transliteration
    (mock_loads hello_response) false (mock_get 200 mock_body) (lit "hello")
  = ([HttpGet (request_for (lit "hello"))], Returned (PyList [PyStr ha; PyStr hala])).
Proof.
  apply (C1_success_returns_suggestions
           (mock_loads hello_response) false (mock_get 200 mock_body)
           (lit "hello") (PyStr (lit "hello")) [PyStr ha; PyStr hala]
           [PyList []; PyDict []] [] []).
  - discriminate.
  - exists (mkResponse 200 mock_body); repeat split.
Defined.


(** A body that is not JSON, with [json.JSONDecodeError] as the decoder's
    exception: the diagnostic is the raw text. *)
Lemma X16_witness_not_json :
  get_kannada_transliteration
    (fun _ => NotJSON "Expecting value") false (mock_get 200 mock_body) (lit "a")
  = ([HttpGet (request_for (lit "a")); Stdout (MsgDecodeError mock_body)],
     Returned PyNone)
  /\ requests_made
       (fst (get_kannada_transliteration
               (fun _ => NotJSON "Expecting value") false (mock_get 200 mock_body)
               (lit "a")))
     = 1.
Proof.
  apply (X16_not_json_returns_None
           (fun _ => NotJSON "Expecting value") false (mock_get 200 mock_body)
           (lit "a") (mkResponse 200 mock_body) "Expecting value").
  - discriminate.
  - reflexivity.
  - reflexivity.
  - reflexivity.
Defined.

(** C7: with an HTTP library whose decoding error is a [RequestException],
    the clause of line 68 takes it before the one of line 71 is tried: the
    diagnostic is the request one and the raw response text is not printed.
    And a body over the decoder's nesting limit, which is not valid JSON
    either, raises [RecursionError] past every clause. *)
Theorem C7_decode_clause_is_shadowed :
  get_kannada_transliteration
    (fun _ => NotJSON "Expecting value") true (mock_get 200 mock_body) (lit "a")
  = ([HttpGet (request_for (lit "a"));
      Stdout (MsgRequestError (mkExc RequestsJSONDecodeError "Expecting value"))],
     Returned PyNone)
  /\ ~ In (Stdout (MsgDecodeError mock_body))
         (fst (get_kannada_transliteration
                 (fun _ => NotJSON "Expecting value") true (mock_get 200 mock_body)
                 (lit "a")))
  /\ get_kannada_transliteration
       (fun _ => OverLimit NestedTooDeep "maximum recursion depth exceeded") true
       (mock_get 200 mock_body) (lit "a")
     = ([HttpGet (request_for (lit "a"))],
        Raised (mkExc RecursionError "maximum recursion depth exceeded")).
Proof.
  repeat split.
  intros [H | [H | []]]; discriminate H.
Qed.

(** C2: [["SUCCESS", [["x", 5]]]] does not have the expected shape, and the
    call returns the number 5: not a failure, and neither the list nor the
    [None] the docstring promises. The loop takes it for suggestions and
    dies in the [for] loop over it. *)
Theorem C2_number_is_returned_as_a_result :
  provider_shape number_suggestions_response = false
  /\ get_kannada_transliteration
       (mock_loads number_suggestions_response) false (mock_get 200 mock_body) (lit "x")
     = ([HttpGet (request_for (lit "x"))], Returned (PyInt 5))
  /\ main (mock_loads number_suggestions_response) false (mock_get 200 mock_body)
       ascii_lower ascii_strip [lit "x"; lit "quit"]
     = ([Prompt; HttpGet (request_for (lit "x")); Stdout MsgSuggestionsHeader],
        Crashed (not_iterable (PyInt 5))).
Proof. repeat split. Qed.

(** [["SUCCESS", [["x"]]]], the spec's example of a wrong arity. *)
Lemma X15_witness_missing_suggestions :
  exists e, is_IndexError_or_TypeError (cls e) = true
            /\ get_kannada_transliteration
                 (mock_loads missing_suggestions_response) false
                 (mock_get 200 mock_body) (lit "x")
               = ([HttpGet (request_for (lit "x"));
                   Stdout (MsgStructureError e missing_suggestions_response)],
                  Returned PyNone).
Proof.
  apply (X15_unindexable_response_fails
           (mock_loads missing_suggestions_response) false (mock_get 200 mock_body)
           (lit "x") missing_suggestions_response).
  - discriminate.
  - exists (mkResponse 200 mock_body); repeat split.
  - reflexivity.
Defined.

(** C4 as stated fails: six suggestions come back as six. *)
Lemma C4_counterexample_six :
  get_kannada_transliteration
    (mock_loads six_suggestions_response) false (mock_get 200 mock_body) (lit "ka")
  = ([HttpGet (request_for (lit "ka"))], Returned (PyList six_suggestions))
  /\ 5 < List.length six_suggestions.
Proof. split; [reflexivity | simpl; lia]. Qed.

(** The same six suggestions, all returned. *)
Lemma C4_witness_six :
  exists returned,
    get_kannada_transliteration
      (mock_loads six_suggestions_response) false (mock_get 200 mock_body) (lit "ka")
    = ([HttpGet (request_for (lit "ka"))], Returned (PyList returned))
    /\ returned = firstn 5 six_suggestions ++ skipn 5 six_suggestions
    /\ List.length returned = List.length six_suggestions
    /\ In ("num"%string, PInt 5) (params (request_for (lit "ka"))).
Proof.
  apply (C4_suggestions_are_not_truncated
           (mock_loads six_suggestions_response) false (mock_get 200 mock_body)
           (lit "ka") (PyStr (lit "ka")) six_suggestions [PyList []; PyDict []] [] []).
  - discriminate.
  - exists (mkResponse 200 mock_body); repeat split.
Defined.

(** C6 as stated fails: a suggestions array holding a number and a null is
    returned as it is, a success that is not a sequence of strings. *)
Lemma C6_counterexample_mixed :
  get_kannada_transliteration
    (mock_loads mixed_suggestions_response) false (mock_get 200 mock_body) (lit "x")
  = ([HttpGet (request_for (lit "x"))], Returned (PyList mixed_suggestions))
  /\ PyList mixed_suggestions <> PyNone
  /\ is_str_seq (PyList mixed_suggestions) = false.
Proof. repeat split; [discriminate]. Qed.

(** A provider that keeps to the data model, and what the call on "hello"
    returns. *)
Lemma C6_witness_hello :
  PyList [PyStr ha; PyStr hala] = PyNone
  \/ is_str_seq (PyList [PyStr ha; PyStr hala]) = true.
Proof.
  apply (C6_result_is_clean_on_provider_shape
           (mock_loads hello_response) false (mock_get 200 mock_body) (lit "hello")
           [HttpGet (request_for (lit "hello"))] (PyList [PyStr ha; PyStr hala])).
  - intros d (r & _ & _ & Hjs).
    injection Hjs as <-.
    reflexivity.
  - reflexivity.
Defined.

(** C8 as stated fails: a status outside 2xx that is neither 4xx nor 5xx
    passes [raise_for_status], and the body is used. *)
Lemma C8_counterexample_status_300 :
  ~ (200 <= 300 < 300)%Z
  /\ get_kannada_transliteration
       (mock_loads no_results_response) false (mock_get 300 mock_body) (lit "a")
     = ([HttpGet (request_for (lit "a"))], Returned (PyList [])).
Proof. split; [lia | reflexivity]. Qed.

(** An HTTP 500 response. *)
Lemma C8_witness_status_500 :
  get_kannada_transliteration
    (mock_loads no_results_response) false (mock_get 500 mock_body) (lit "a")
  = ([HttpGet (request_for (lit "a"));
      Stdout (MsgRequestError (mkExc HTTPError "bad status code"))],
     Returned PyNone)
  /\ requests_made
       (fst (get_kannada_transliteration
               (mock_loads no_results_response) false (mock_get 500 mock_body) (lit "a")))
     = 1
  /\ is_RequestException (cls (mkExc HTTPError "bad status code")) = true.
Proof.
  apply (C8_network_failure_fails
           (mock_loads no_results_response) false (mock_get 500 mock_body) (lit "a")).
  - discriminate.
  - apply (nf_status (mkResponse 500 mock_body)); simpl; lia.
Defined.

(** A timeout and a response of the wrong arity: the same [None]. *)
Lemma C10_witness_timeout_and_arity :
  snd (get_kannada_transliteration
         (mock_loads no_results_response) false
         (fun _ => Unreachable TimedOut "read timed out") (lit "a"))
  = snd (get_kannada_transliteration
           (mock_loads missing_suggestions_response) false
           (mock_get 200 mock_body) (lit "x"))
  /\ snd (get_kannada_transliteration
            (mock_loads no_results_response) false
            (fun _ => Unreachable TimedOut "read timed out") (lit "a"))
     = Returned PyNone
  /\ Returned PyNone <> Returned (PyList []).
Proof.
  apply (C10_error_kinds_collapse_to_None
           (mock_loads no_results_response) (mock_loads missing_suggestions_response)
           false false
           (fun _ => Unreachable TimedOut "read timed out") (mock_get 200 mock_body)
           (lit "a") (lit "x") TransportError MalformedResponseError).
  - split; [discriminate |].
    eexists _, _, _; split; reflexivity.
  - split; [discriminate |].
    eexists _, _, _; split; reflexivity.
Defined.

(* ================================================================== *)
(** ** Every way a call can end *)

(** The indexing fails with [KeyError] exactly when a JSON object lies on
    the indexed path. *)
Lemma unwrap_object_on_path (d : value) :
  object_on_path d = true <->
  exists e, unwrap d = Raise e /\ cls e = KeyError.
Proof.
  split.
  - intros H.
    destruct d as [| | | | | l | m]; try discriminate H;
      [| eexists; split; reflexivity].
    destruct l as [| status [| p more]]; try discriminate H.
    cbn [object_on_path] in H; apply andb_true_iff in H as [Hs Hp].
    unfold unwrap; cbn [getitem nth_error bind]; rewrite Hs.
    destruct p as [| | | | | es | m]; try discriminate Hp.
    + destruct es as [| [| | | | | |] es']; try discriminate Hp.
      eexists; split; reflexivity.
    + destruct m; [discriminate Hp |].
      eexists; split; reflexivity.
  - intros (e & He & Hc).
    destruct d as [| | | | s | l | m]; try reflexivity;
      try (injection He as <-; discriminate Hc).
    + destruct s as [| c s']; [injection He as <-; discriminate Hc |].
      rewrite unwrap_one_char in He; discriminate He.
    + destruct l as [| status [| p more]].
      * injection He as <-; discriminate Hc.
      * unfold unwrap in He; cbn [getitem nth_error bind] in He.
        destruct (eq_str status SUCCESS); [| discriminate He].
        injection He as <-; discriminate Hc.
      * unfold unwrap in He; cbn [getitem nth_error bind] in He.
        cbn [object_on_path].
        destruct (eq_str status SUCCESS); [| discriminate He].
        destruct (truthy p) eqn:Ht; [| discriminate He].
        destruct p as [| | | | s | es | m]; cbn in He;
          try (injection He as <-; discriminate Hc).
        -- destruct s as [| c [| c' s']]; cbn in *; try discriminate Ht;
             injection He as <-; discriminate Hc.
        -- destruct es as [| e0 es']; [discriminate Ht |].
           destruct e0 as [| | | | s | fs | m0]; cbn in He; try reflexivity;
             try (injection He as <-; discriminate Hc).
           ++ destruct s as [| c [| c' s']]; cbn in He; try discriminate He;
                injection He as <-; discriminate Hc.
           ++ destruct fs as [| x [| y fs']]; cbn in He; try discriminate He;
                injection He as <-; discriminate Hc.
        -- destruct m; [discriminate Ht | reflexivity].
Qed.

Lemma raise_for_status_bad (r : Response) (e : exc) :
  raise_for_status r = Raise e -> (400 <= status_code r < 600)%Z.
Proof.
  unfold raise_for_status.
  destruct (_ && _)%bool eqn:Hb; [intros _ | discriminate].
  apply andb_true_iff in Hb as [Hlo Hhi].
  apply Z.leb_le in Hlo; apply Z.ltb_lt in Hhi; lia.
Qed.

Section CallProperties.

Variable json_loads : str -> decoded.
Variable requests_own_json_error : bool.
Variable requests_get : request -> http_result.

Local Abbreviation transliterate :=
  (get_kannada_transliteration json_loads requests_own_json_error requests_get).

(** A call on a non-empty input ends in one of three ways, each after one
    call of [requests.get]: a value and nothing printed; one diagnostic and
    [None]; or an exception that no clause names and nothing printed. *)
Lemma call_cases (input_text : str) :
  input_text <> [] ->
  (exists v d, delivers json_loads requests_get input_text d
               /\ unwrap d = Ok v
               /\ transliterate input_text
                  = ([HttpGet (request_for input_text)], Returned v))
  \/ (exists m, transliterate input_text
                = ([HttpGet (request_for input_text); Stdout m], Returned PyNone))
  \/ (exists e, handler_of e = None
                /\ transliterate input_text
                   = ([HttpGet (request_for input_text)], Raised e)).
Proof.
  intros Hne.
  destruct (requests_get (request_for input_text)) as [f cause | r |] eqn:Hget.
  { right; left; eexists; apply (run_unreachable _ _ _ _ _ _ Hne Hget). }
  2:{ right; right; eexists; split;
        [| apply (run_not_sent _ requests_own_json_error _ _ Hne Hget)].
      reflexivity. }
  destruct (raise_for_status r) as [[] | e] eqn:Hst.
  2:{ right; left; eexists.
      apply (run_bad_status _ _ _ _ _ Hne Hget (raise_for_status_bad _ _ Hst)). }
  destruct (json_loads (text r)) as [d | msg | f msg] eqn:Hjs.
  2:{ right; left; eexists; apply (run_not_json _ _ _ _ _ _ Hne Hget Hst Hjs). }
  2:{ right; right; eexists; split;
        [| apply (run_over_limit _ requests_own_json_error _ _ _ _ _ Hne Hget Hst Hjs)].
      now destruct f. }
  pose proof (run_decoded _ requests_own_json_error _ _ _ _ Hne Hget Hst Hjs) as Hrun.
  destruct (unwrap d) as [v | e] eqn:Hu.
  { left; exists v, d; repeat split; auto. exists r; auto. }
  destruct (unwrap_raises _ _ Hu) as [Hc | [Hc | Hc]];
    unfold except in Hrun; rewrite Hc in Hrun; cbn in Hrun.
  - right; left; eexists; exact Hrun.
  - right; left; eexists; exact Hrun.
  - right; right; exists e; split; [| exact Hrun].
    unfold handler_of; now rewrite Hc.
Qed.

(** X1: a call on the empty input leaves no trace: [requests.get] is not
    called. A call on any other input calls [requests.get] exactly once,
    with the request for that input, before anything else, and after it
    prints at most one line. *)
Theorem X1_trace_of_a_call (input_text : str) :
  match input_text with
  | [] => fst (transliterate input_text) = []
  | _ :: _ =>
      exists out, fst (transliterate input_text)
                  = HttpGet (request_for input_text) :: out
                  /\ requests_made out = 0
                  /\ (out = [] \/ exists m, out = [Stdout m])
  end.
Proof.
  destruct input_text as [| c s]; [reflexivity |].
  destruct (call_cases (c :: s)) as [(v & d & _ & _ & H) | [(m & H) | (e & _ & H)]];
    try discriminate; rewrite H; cbn [fst].
  - exists []; auto.
  - exists [Stdout m]; repeat split; eauto.
  - exists []; auto.
Qed.

(** X3: when the decoded response has a JSON object on the indexed path,
    the call raises [KeyError] after its one request and prints nothing. *)
Theorem X3_object_on_path_raises (input_text : str) (d : value) :
  input_text <> [] ->
  delivers json_loads requests_get input_text d ->
  object_on_path d = true ->
  exists e, cls e = KeyError
            /\ transliterate input_text
               = ([HttpGet (request_for input_text)], Raised e).
Proof.
  intros Hne (r & Hget & Hst & Hjs) Ho.
  apply unwrap_object_on_path in Ho as (e & Hu & Hc).
  exists e; split; [exact Hc |].
  rewrite (run_decoded _ _ _ _ _ _ Hne Hget Hst Hjs), Hu.
  unfold except; rewrite Hc; reflexivity.
Qed.

(** X4: every other decoded response, one that can be indexed and has no
    object on the path, gives a returned value, with nothing printed. *)
Theorem X4_other_responses_return (input_text : str) (d : value) :
  input_text <> [] ->
  delivers json_loads requests_get input_text d ->
  unindexable d = false ->
  object_on_path d = false ->
  exists v, unwrap d = Ok v
            /\ transliterate input_text
               = ([HttpGet (request_for input_text)], Returned v).
Proof.
  intros Hne (r & Hget & Hst & Hjs) Hu Ho.
  rewrite (run_decoded _ _ _ _ _ _ Hne Hget Hst Hjs).
  destruct (unwrap d) as [v | e] eqn:He; [eauto |].
  exfalso.
  destruct (unwrap_raises _ _ He) as [Hc | [Hc | Hc]].
  - assert (unindexable d = true) as Hx; [| congruence].
    apply unwrap_unindexable; exists e; rewrite Hc; auto.
  - assert (unindexable d = true) as Hx; [| congruence].
    apply unwrap_unindexable; exists e; rewrite Hc; auto.
  - assert (object_on_path d = true) as Hx; [| congruence].
    apply unwrap_object_on_path; eauto.
Qed.

(** X5: a call that prints a line returns [None]: no diagnostic comes with
    a result. *)
Theorem X5_a_diagnostic_means_None (input_text : str) (m : message) :
  In (Stdout m) (fst (transliterate input_text)) ->
  snd (transliterate input_text) = Returned PyNone.
Proof.
  destruct input_text as [| c s]; [intros [] |].
  destruct (call_cases (c :: s)) as [(v & d & _ & _ & H) | [(m' & H) | (e & _ & H)]];
    try discriminate; rewrite H; cbn [fst snd].
  - intros [Hin | []]; discriminate Hin.
  - reflexivity.
  - intros [Hin | []]; discriminate Hin.
Qed.

End CallProperties.

(* ================================================================== *)
(** ** The loop over standard input *)

Lemma requests_made_app (a b : list event) :
  requests_made (a ++ b) = requests_made a + requests_made b.
Proof.
  induction a as [| ev a IH]; [reflexivity |].
  destruct ev; cbn [app requests_made]; rewrite IH; reflexivity.
Qed.

Lemma visible_app (a b : list event) : visible (a ++ b) = visible a ++ visible b.
Proof. apply filter_app. Qed.

Lemma enumerate_numbered (i : nat) (items : list value) :
  forallb printable items = true ->
  enumerate i items
  = (map (fun p => Stdout (MsgSuggestion (fst p) (snd p)))
         (combine (seq (i + 1) (List.length items)) items),
     None).
Proof.
  revert i; induction items as [| x items IH]; intros i H; [reflexivity |].
  cbn [forallb] in H; apply andb_true_iff in H as [Hx Hitems].
  cbn [enumerate List.length seq combine map fst snd].
  now rewrite Hx, (IH _ Hitems).
Qed.


Lemma enumerate_printed (i : nat) (items : list value) :
  forallb is_stdout (fst (enumerate i items)) = true.
Proof.
  revert i; induction items as [| x items IH]; intros i; [reflexivity |].
  cbn [enumerate].
  destruct (printable x); [| reflexivity].
  specialize (IH (S i)).
  destruct (enumerate (S i) items) as [out e]; exact IH.
Qed.

Lemma printed_no_request (out : list event) (req : request) :
  forallb is_stdout out = true -> ~ In (HttpGet req) out.
Proof.
  intros H Hin.
  rewrite forallb_forall in H.
  specialize (H _ Hin); discriminate H.
Qed.

Lemma printed_requests_made (out : list event) :
  forallb is_stdout out = true -> requests_made out = 0.
Proof.
  induction out as [| ev out IH]; [reflexivity |].
  destruct ev; cbn; try discriminate; exact IH.
Qed.

Section LoopProperties.

Variable json_loads : str -> decoded.
Variable requests_own_json_error : bool.
Variable requests_get : request -> http_result.
Variable lower : str -> str.
Variable strip : str -> str.

Local Abbreviation transliterate :=
  (get_kannada_transliteration json_loads requests_own_json_error requests_get).
Local Abbreviation loop :=
  (main json_loads requests_own_json_error requests_get lower strip).
Local Abbreviation pass :=
  (iteration json_loads requests_own_json_error requests_get lower strip).

(** The loop is one pass after the other, until a pass ends it. *)
Lemma main_iteration (line : str) (rest : list str) :
  loop (line :: rest) =
    match pass line with
    | (tr, Some x) => (tr, x)
    | (tr, None) => (tr ++ fst (loop rest), snd (loop rest))
    end.
Proof.
  cbn [main]; unfold iteration, is_blank, is_quit.
  destruct (str_eqb (lower line) (lit "quit")); [reflexivity |].
  cbn [negb andb].
  destruct (truthy (PyStr (strip line))); cbn [negb];
    [| now destruct (main _ _ _ _ _ rest)].
  destruct (transliterate line) as [call [v | e]]; [| reflexivity].
  destruct (main _ _ _ _ _ rest) as [tr x]; cbn [fst snd].
  assert (A : forall ev, Prompt :: call ++ ev :: tr = (Prompt :: call ++ [ev]) ++ tr).
  { intros ev; cbn [app]; now rewrite <- app_assoc. }
  destruct v as [| b | z | f | s | l | m];
    try (destruct (negb (truthy _)); [apply f_equal2; [apply A | reflexivity] |]);
    cbn [iter];
    try reflexivity;
    try (apply f_equal2; [apply A | reflexivity]);
    (destruct (enumerate 0 _) as [out [e |]]; [reflexivity |]);
    apply f_equal2; try reflexivity;
    cbn [app]; rewrite <- app_assoc; cbn [app];
    rewrite <- app_assoc; reflexivity.
Qed.

(** A pass that calls the provider: the prompt, the trace of the call, and
    then only printed lines. *)
Lemma iteration_shape (line : str) :
  is_quit lower line = false ->
  is_blank lower strip line = false ->
  exists shown, forallb is_stdout shown = true
                /\ fst (pass line) = Prompt :: fst (transliterate line) ++ shown.
Proof.
  intros Hq Hb; unfold iteration; rewrite Hq, Hb.
  destruct (transliterate line) as [call [v | e]]; cbn [fst];
    [| exists []; now rewrite app_nil_r].
  destruct v as [| b | z | f | s | l | m];
    try (destruct (negb (truthy _))); cbn [iter];
    try match goal with
        | |- context [enumerate 0 ?items] =>
            pose proof (enumerate_printed 0 items) as Hp; revert Hp;
            destruct (enumerate 0 items) as [out [e |]]; cbn [fst]; intro Hp
        end;
    cbn [fst];
    (eexists; split; cycle 1; [reflexivity |]);
    cbn [forallb is_stdout andb];
    rewrite ?forallb_app, ?Hp; reflexivity.
Qed.

(** What one pass sends: nothing, or the request for the line as it was
    read. *)
Lemma iteration_request (line : str) (req : request) :
  In (HttpGet req) (fst (pass line)) ->
  req = request_for line /\ line <> []
  /\ is_quit lower line = false /\ is_blank lower strip line = false.
Proof.
  destruct (is_quit lower line) eqn:Hq;
    [unfold iteration; rewrite Hq; intros [H | []]; discriminate H |].
  destruct (is_blank lower strip line) eqn:Hb;
    [unfold iteration; rewrite Hq, Hb; intros [H | []]; discriminate H |].
  destruct (iteration_shape line Hq Hb) as (shown & Hs & ->).
  intros [H | H]; [discriminate H |].
  apply in_app_or in H as [Hcall | H];
    [| exfalso; exact (printed_no_request _ _ Hs H)].
  destruct line as [| c s]; [destruct Hcall |].
  assert (Hne : c :: s <> []) by discriminate.
  repeat split; auto.
  destruct (call_cases json_loads requests_own_json_error requests_get _ Hne)
    as [(v & d & _ & _ & H) | [(m & H) | (e & _ & H)]];
    rewrite H in Hcall; cbn [fst] in Hcall.
  - destruct Hcall as [E | []]; now injection E.
  - destruct Hcall as [E | [E | []]]; [now injection E | discriminate E].
  - destruct Hcall as [E | []]; now injection E.
Qed.

(** X6: every request the program sends is the request for a line it read,
    with the line as typed (neither stripped nor lowered), and that line is
    neither the quit word nor blank. *)
Theorem X6_requests_are_for_lines_read (stdin : list str) (req : request) :
  In (HttpGet req) (fst (loop stdin)) ->
  exists line, In line stdin
               /\ req = request_for line
               /\ line <> []
               /\ is_quit lower line = false
               /\ is_blank lower strip line = false.
Proof.
  induction stdin as [| line rest IH].
  - intros [H | []]; discriminate H.
  - rewrite main_iteration.
    destruct (pass line) as [tr [x |]] eqn:Hp; cbn [fst].
    + intros Hin; exists line; split; [now left |].
      apply iteration_request; rewrite Hp; exact Hin.
    + intros Hin; apply in_app_or in Hin as [Hin | Hin].
      * exists line; split; [now left |].
        apply iteration_request; rewrite Hp; exact Hin.
      * destruct (IH Hin) as (l & Hl & H); exists l; split; [now right | exact H].
Qed.

Lemma iteration_quit (line : str) :
  is_quit lower line = true -> pass line = ([Prompt], Some Finished).
Proof. intros H; unfold iteration; now rewrite H. Qed.

Lemma iteration_blank (line : str) :
  is_blank lower strip line = true -> pass line = ([Prompt], None).
Proof.
  intros H; unfold iteration.
  destruct (is_quit lower line) eqn:Hq; [| now rewrite H].
  unfold is_blank in H; rewrite Hq in H; discriminate H.
Qed.

Lemma iteration_finished (line : str) :
  snd (pass line) = Some Finished -> is_quit lower line = true.
Proof.
  unfold iteration.
  destruct (is_quit lower line); [reflexivity |].
  destruct (is_blank lower strip line); [discriminate |].
  destruct (transliterate line) as [call [v | e]]; [| discriminate].
  destruct v as [| b | z | f | s | l | m];
    try (destruct (negb (truthy _))); cbn [iter];
    try (destruct (enumerate 0 _) as [out [e |]]);
    cbn [snd]; discriminate.
Qed.

Lemma iteration_requests_made (line : str) :
  requests_made (fst (pass line)) <= 1.
Proof.
  destruct (is_quit lower line) eqn:Hq;
    [rewrite (iteration_quit _ Hq); cbn; lia |].
  destruct (is_blank lower strip line) eqn:Hb;
    [rewrite (iteration_blank _ Hb); cbn; lia |].
  destruct (iteration_shape line Hq Hb) as (shown & Hs & ->).
  cbn [requests_made]; rewrite requests_made_app, (printed_requests_made _ Hs).
  pose proof (at_most_one_request json_loads requests_own_json_error requests_get line).
  lia.
Qed.

(** X7: the program calls [requests.get] at most once for each line it is
    given: it asks for nothing twice. *)
Theorem X7_at_most_one_request_per_line (stdin : list str) :
  requests_made (fst (loop stdin)) <= List.length stdin.
Proof.
  induction stdin as [| line rest IH]; [cbn; lia |].
  rewrite main_iteration.
  pose proof (iteration_requests_made line) as Hp.
  destruct (pass line) as [tr [x |]]; cbn [fst List.length] in *; [lia |].
  rewrite requests_made_app; lia.
Qed.

(** X8: the program ends normally only on a line that says quit, in any
    case; without one it ends with an exception (the end of input at the
    latest). *)
Theorem X8_only_quit_ends_normally (stdin : list str) :
  snd (loop stdin) = Finished ->
  exists q, In q stdin /\ is_quit lower q = true.
Proof.
  induction stdin as [| line rest IH]; [discriminate |].
  rewrite main_iteration.
  destruct (pass line) as [tr [x |]] eqn:Hp; cbn [snd].
  - intros ->; exists line; split; [now left |].
    apply iteration_finished; now rewrite Hp.
  - intros H; destruct (IH H) as (q & Hin & Hq).
    exists q; split; [now right | exact Hq].
Qed.

(** X9: nothing after a quit line is read: the run is the same whatever
    follows it. *)
Theorem X9_nothing_is_read_after_quit (pre post : list str) (q : str) :
  is_quit lower q = true ->
  loop (pre ++ q :: post) = loop (pre ++ [q]).
Proof.
  intros Hq.
  induction pre as [| line pre IH]; cbn [app].
  - now rewrite !main_iteration, (iteration_quit _ Hq).
  - now rewrite !main_iteration, IH.
Qed.

(** X10: blank lines change nothing but the number of prompts: with them
    removed from the input, the requests and the printed lines are the
    same, in the same order, and the program ends the same way. *)
Theorem X10_blank_lines_only_prompt (stdin : list str) :
  visible (fst (loop stdin))
  = visible (fst (loop (filter (fun l => negb (is_blank lower strip l)) stdin)))
  /\ snd (loop stdin)
     = snd (loop (filter (fun l => negb (is_blank lower strip l)) stdin)).
Proof.
  induction stdin as [| line rest [IHt IHx]]; [split; reflexivity |].
  cbn [filter].
  destruct (is_blank lower strip line) eqn:Hb; cbn [negb].
  - rewrite main_iteration, (iteration_blank _ Hb); cbn [fst snd app].
    split; [exact IHt | exact IHx].
  - rewrite !main_iteration.
    destruct (pass line) as [tr [x |]]; cbn [fst snd]; [split; reflexivity |].
    rewrite !visible_app, IHt, IHx; split; reflexivity.
Qed.

(** X11: a non-empty list of suggestions that [print] can write (no string
    among them holds a lone surrogate) is printed under the header in the
    provider's order, numbered from 1, followed by the rule; then the loop
    goes on. *)
Theorem X11_suggestions_are_numbered_from_1
  (line : str) (rest : list str) (call : list event) (first : value) (others : list value) :
  is_quit lower line = false ->
  is_blank lower strip line = false ->
  transliterate line = (call, Returned (PyList (first :: others))) ->
  forallb printable (first :: others) = true ->
  loop (line :: rest) =
    (Prompt :: call ++ Stdout MsgSuggestionsHeader
       :: numbered (first :: others) ++ Stdout MsgRule :: fst (loop rest),
     snd (loop rest)).
Proof.
  intros Hq Hb Hcall Hprint.
  rewrite main_iteration; unfold iteration; rewrite Hq, Hb, Hcall.
  cbn [truthy negb iter]; rewrite (enumerate_numbered _ _ Hprint).
  fold (numbered (first :: others)).
  apply f_equal2; [| reflexivity].
  cbn [app]; rewrite <- app_assoc; cbn [app]; rewrite <- app_assoc; reflexivity.
Qed.


(** X18: an exception that leaves the call ends the process: this is what
    happens on a body over one of the decoder's limits ([ValueError],
    [RecursionError]), which no [except] clause names. [requests.get] was
    called once, nothing is printed, no later line is read. *)
Theorem X18_decoder_limit_ends_the_process
  (line : str) (rest : list str) (r : Response) (f : decoder_limit) (msg : string) :
  is_quit lower line = false ->
  is_blank lower strip line = false ->
  line <> [] ->
  requests_get (request_for line) = Responded r ->
  raise_for_status r = Ok tt ->
  json_loads (text r) = OverLimit f msg ->
  handler_of (limit_exc f msg) = None
  /\ transliterate line = ([HttpGet (request_for line)], Raised (limit_exc f msg))
  /\ loop (line :: rest)
     = ([Prompt; HttpGet (request_for line)], Crashed (limit_exc f msg)).
Proof.
  intros Hq Hb Hne Hget Hst Hjs.
  pose proof (run_over_limit _ requests_own_json_error _ _ _ _ _ Hne Hget Hst Hjs)
    as Hcall.
  split; [now destruct f |].
  split; [exact Hcall |].
  rewrite main_iteration; unfold iteration; rewrite Hq, Hb, Hcall.
  reflexivity.
Qed.

(** X13: a null where the suggestions belong is returned as [None] without
    any diagnostic, and the loop reports it as an error and goes on, as it
    does after an [except] clause. *)
Theorem X13_null_suggestions_are_reported_as_an_error
  (line : str) (rest : list str) (echoed : value) (fields entries more : list value) :
  is_quit lower line = false ->
  is_blank lower strip line = false ->
  line <> [] ->
  delivers json_loads requests_get line
    (PyList (PyStr SUCCESS
             :: PyList (PyList (echoed :: PyNone :: fields) :: entries)
             :: more)) ->
  transliterate line = ([HttpGet (request_for line)], Returned PyNone)
  /\ loop (line :: rest) =
       (Prompt :: HttpGet (request_for line) :: Stdout MsgErrorOccurred
          :: fst (loop rest),
        snd (loop rest)).
Proof.
  intros Hq Hb Hne (r & Hget & Hst & Hjs).
  assert (Hcall : transliterate line = ([HttpGet (request_for line)], Returned PyNone)).
  { now rewrite (run_decoded _ _ _ _ _ _ Hne Hget Hst Hjs), unwrap_success. }
  split; [exact Hcall |].
  rewrite main_iteration; unfold iteration; rewrite Hq, Hb, Hcall.
  reflexivity.
Qed.

End LoopProperties.

Lemma request_encodable (input_text : str) :
  forallb (fun kv => param_encodable (snd kv)) (params (request_for input_text))
  = encodable input_text.
Proof.
  unfold request_for; cbn [params forallb snd param_encodable].
  destruct (encodable input_text); reflexivity.
Qed.

(** X19: a line with a lone surrogate in it, which the library cannot
    encode into the URL: whatever the network would answer, the call of
    [requests.get] raises [UnicodeEncodeError], no [except] clause names it,
    and the exception ends the process with nothing printed. *)
Theorem X19_lone_surrogate_ends_the_process
  (json_loads : str -> decoded) (requests_own_json_error : bool)
  (network : request -> http_result) (lower strip : str -> str)
  (line : str) (rest : list str) :
  is_quit lower line = false ->
  is_blank lower strip line = false ->
  encodable line = false ->
  get_kannada_transliteration
    json_loads requests_own_json_error (library_get network) line
  = ([HttpGet (request_for line)], Raised cannot_encode)
  /\ main json_loads requests_own_json_error (library_get network) lower strip
       (line :: rest)
     = ([Prompt; HttpGet (request_for line)], Crashed cannot_encode).
Proof.
  intros Hq Hb Henc.
  assert (Hne : line <> []) by (intros ->; discriminate Henc).
  assert (Hget : library_get network (request_for line) = NotSent).
  { unfold library_get; now rewrite request_encodable, Henc. }
  pose proof (run_not_sent json_loads requests_own_json_error _ _ Hne Hget) as Hcall.
  split; [exact Hcall |].
  rewrite main_iteration; unfold iteration; rewrite Hq, Hb, Hcall.
  reflexivity.
Qed.

(* ================================================================== *)
(** ** More concrete runs *)

(** [["SUCCESS", [{}]]]: an object as the first payload entry. *)
Lemma X3_witness_object_entry :
  exists e, cls e = KeyError
            /\ get_kannada_transliteration
                 (mock_loads (PyList [PyStr SUCCESS; PyList [PyDict []]])) false
                 (mock_get 200 mock_body) (lit "a")
               = ([HttpGet (request_for (lit "a"))], Raised e).
Proof.
  apply (X3_object_on_path_raises
           (mock_loads (PyList [PyStr SUCCESS; PyList [PyDict []]])) false
           (mock_get 200 mock_body) (lit "a")
           (PyList [PyStr SUCCESS; PyList [PyDict []]])).
  - discriminate.
  - exists (mkResponse 200 mock_body); repeat split.
  - reflexivity.
Defined.

(** A number where the suggestions belong: it can be indexed, so it comes
    back. *)
Lemma X4_witness_number :
  exists v, unwrap number_suggestions_response = Ok v
            /\ get_kannada_transliteration
                 (mock_loads number_suggestions_response) false
                 (mock_get 200 mock_body) (lit "x")
               = ([HttpGet (request_for (lit "x"))], Returned v).
Proof.
  apply (X4_other_responses_return
           (mock_loads number_suggestions_response) false (mock_get 200 mock_body)
           (lit "x") number_suggestions_response).
  - discriminate.
  - exists (mkResponse 200 mock_body); repeat split.
  - reflexivity.
  - reflexivity.
Defined.

(** The diagnostic of a response of the wrong arity. *)
Lemma X5_witness_arity :
  snd (get_kannada_transliteration
         (mock_loads missing_suggestions_response) false
         (mock_get 200 mock_body) (lit "x"))
  = Returned PyNone.
Proof.
  apply (X5_a_diagnostic_means_None
           (mock_loads missing_suggestions_response) false (mock_get 200 mock_body)
           (lit "x")
           (MsgStructureError (mkExc IndexError "list index out of range")
              missing_suggestions_response)).
  right; left; reflexivity.
Defined.

(** A line typed with a leading space is asked for with the space. *)
Lemma X6_witness_leading_space :
  exists line, In line [lit " hello"; lit "quit"]
               /\ request_for (lit " hello") = request_for line
               /\ line <> []
               /\ is_quit ascii_lower line = false
               /\ is_blank ascii_lower ascii_strip line = false.
Proof.
  apply (X6_requests_are_for_lines_read
           (mock_loads hello_response) false (mock_get 200 mock_body)
           ascii_lower ascii_strip [lit " hello"; lit "quit"]
           (request_for (lit " hello"))).
  right; left; reflexivity.
Defined.

(** "Quit" with a capital ends the program. *)
Lemma X8_witness_capital_quit :
  exists q, In q [lit "Quit"] /\ is_quit ascii_lower q = true.
Proof.
  apply (X8_only_quit_ends_normally
           (mock_loads hello_response) false (mock_get 200 mock_body)
           ascii_lower ascii_strip [lit "Quit"]).
  reflexivity.
Defined.

(** A line after "QUIT" is not read. *)
Lemma X9_witness_line_after_quit :
  main (mock_loads error_object_response) false (mock_get 200 mock_body)
    ascii_lower ascii_strip ([lit " "] ++ lit "QUIT" :: [lit "a"])
  = main (mock_loads error_object_response) false (mock_get 200 mock_body)
      ascii_lower ascii_strip ([lit " "] ++ [lit "QUIT"]).
Proof.
  apply (X9_nothing_is_read_after_quit
           (mock_loads error_object_response) false (mock_get 200 mock_body)
           ascii_lower ascii_strip [lit " "] [lit "a"] (lit "QUIT")).
  reflexivity.
Defined.

(** The two suggestions of the spec's example, as the program prints them. *)
Lemma X11_witness_hello :
  main (mock_loads hello_response) false (mock_get 200 mock_body)
    ascii_lower ascii_strip [lit "hello"; lit "quit"]
  = (Prompt :: [HttpGet (request_for (lit "hello"))]
       ++ Stdout MsgSuggestionsHeader
       :: numbered [PyStr ha; PyStr hala]
       ++ Stdout MsgRule
       :: fst (main (mock_loads hello_response) false (mock_get 200 mock_body)
                 ascii_lower ascii_strip [lit "quit"]),
     snd (main (mock_loads hello_response) false (mock_get 200 mock_body)
            ascii_lower ascii_strip [lit "quit"])).
Proof.
  apply (X11_suggestions_are_numbered_from_1
           (mock_loads hello_response) false (mock_get 200 mock_body)
           ascii_lower ascii_strip (lit "hello") [lit "quit"]
           [HttpGet (request_for (lit "hello"))] (PyStr ha) [PyStr hala]);
    reflexivity.
Defined.


(** A body with an integer of too many digits. *)
Lemma X18_witness_integer_too_long :
  handler_of (limit_exc IntegerTooLong "Exceeds the limit for integer string conversion")
  = None
  /\ get_kannada_transliteration
       (fun _ => OverLimit IntegerTooLong "Exceeds the limit for integer string conversion")
       false (mock_get 200 mock_body) (lit "a")
     = ([HttpGet (request_for (lit "a"))],
        Raised (limit_exc IntegerTooLong "Exceeds the limit for integer string conversion"))
  /\ main
       (fun _ => OverLimit IntegerTooLong "Exceeds the limit for integer string conversion")
       false (mock_get 200 mock_body) ascii_lower ascii_strip [lit "a"; lit "quit"]
     = ([Prompt; HttpGet (request_for (lit "a"))],
        Crashed (limit_exc IntegerTooLong "Exceeds the limit for integer string conversion")).
Proof.
  apply (X18_decoder_limit_ends_the_process
           (fun _ => OverLimit IntegerTooLong "Exceeds the limit for integer string conversion")
           false (mock_get 200 mock_body) ascii_lower ascii_strip
           (lit "a") [lit "quit"] (mkResponse 200 mock_body) IntegerTooLong
           "Exceeds the limit for integer string conversion").
  - reflexivity.
  - reflexivity.
  - discriminate.
  - reflexivity.
  - reflexivity.
  - reflexivity.
Defined.

(** A line that is one lone surrogate, over a network that would answer. *)
Lemma X19_witness_lone_surrogate :
  get_kannada_transliteration
    (mock_loads hello_response) false (library_get (mock_get 200 mock_body))
    lone_surrogate
  = ([HttpGet (request_for lone_surrogate)], Raised cannot_encode)
  /\ main (mock_loads hello_response) false (library_get (mock_get 200 mock_body))
       ascii_lower ascii_strip [lone_surrogate; lit "quit"]
     = ([Prompt; HttpGet (request_for lone_surrogate)], Crashed cannot_encode).
Proof.
  apply (X19_lone_surrogate_ends_the_process
           (mock_loads hello_response) false (mock_get 200 mock_body)
           ascii_lower ascii_strip lone_surrogate [lit "quit"]);
    reflexivity.
Defined.

(** [["SUCCESS", [["x", null]]]] *)
Lemma X13_witness_null :
  get_kannada_transliteration
    (mock_loads null_suggestions_response) false (mock_get 200 mock_body) (lit "x")
  = ([HttpGet (request_for (lit "x"))], Returned PyNone)
  /\ main (mock_loads null_suggestions_response) false (mock_get 200 mock_body)
       ascii_lower ascii_strip [lit "x"; lit "quit"]
     = (Prompt :: HttpGet (request_for (lit "x")) :: Stdout MsgErrorOccurred
          :: fst (main (mock_loads null_suggestions_response) false
                    (mock_get 200 mock_body) ascii_lower ascii_strip [lit "quit"]),
        snd (main (mock_loads null_suggestions_response) false
               (mock_get 200 mock_body) ascii_lower ascii_strip [lit "quit"])).
Proof.
  apply (X13_null_suggestions_are_reported_as_an_error
           (mock_loads null_suggestions_response) false (mock_get 200 mock_body)
           ascii_lower ascii_strip (lit "x") [lit "quit"]
           (PyStr (lit "x")) [] [] []).
  - reflexivity.
  - reflexivity.
  - discriminate.
  - exists (mkResponse 200 mock_body); repeat split.
Defined.

